(** * Todo backend: the request pipeline of [routes/todos.ts] over the
    [Todo] model of [models/Todo.ts].

    The five route handlers are embedded as functions from a request and a
    store to a response and a store.  The store is the Mongoose model
    [Todo]: its behaviour is fixed by the schema options written in
    [models/Todo.ts] (setters, validators, defaults, timestamps) and by the
    documented behaviour of the four Mongoose calls the handlers make. *)

From Stdlib Require Import List ZArith NArith Bool String Ascii Lia.
From Stdlib Require Import Permutation Sorted.
Import ListNotations.

(** ** JavaScript strings *)

(** A JavaScript string is a sequence of UTF-16 code units; [length] and
    [trim] work on code units. *)
Definition jsstring := list N.

(** Reading an ASCII literal as a JavaScript string. *)
Fixpoint js (s : string) : jsstring :=
  match s with
  | EmptyString => []
  | String c r => N_of_ascii c :: js r
  end.

(** WhiteSpace and LineTerminator of ECMAScript: the code units
    [String.prototype.trim] strips. *)
Definition isWhiteSpace (c : N) : bool :=
  ((9 <=? c) && (c <=? 13)             (* TAB LF VT FF CR *)
   || (c =? 32)                        (* SPACE *)
   || (c =? 160)                       (* NO-BREAK SPACE *)
   || (c =? 5760)                      (* U+1680 *)
   || ((8192 <=? c) && (c <=? 8202))   (* U+2000 .. U+200A *)
   || (c =? 8232) || (c =? 8233)       (* U+2028, U+2029 *)
   || (c =? 8239)                      (* U+202F *)
   || (c =? 8287)                      (* U+205F *)
   || (c =? 12288)                     (* U+3000 *)
   || (c =? 65279))%N.                 (* U+FEFF *)

Fixpoint trimStart (s : jsstring) : jsstring :=
  match s with
  | [] => []
  | c :: r => if isWhiteSpace c then trimStart r else s
  end.

Definition trimEnd (s : jsstring) : jsstring := rev (trimStart (rev s)).

(** [String.prototype.trim]. *)
Definition trim (s : jsstring) : jsstring := trimEnd (trimStart s).

(** [s === ''] *)
Definition isEmpty (s : jsstring) : bool :=
  match s with [] => true | _ => false end.

(** [x || undefined] on a string-or-undefined value: the empty string is
    falsy. *)
Definition orUndefined (x : option jsstring) : option jsstring :=
  match x with
  | Some [] => None
  | _ => x
  end.

(** [description?.trim() || undefined] (routes, lines 80 and 118). *)
Definition trimOrUndefined (description : option jsstring) : option jsstring :=
  orUndefined (option_map trim description).

(** ** Requests *)

(** A parsed JSON value, for the keys of a request body no handler reads. *)
Unset Elimination Schemes.
Inductive JSON : Type :=
| JNull
| JBool (b : bool)
| JNumber (n : Z)
| JString (s : jsstring)
| JArray (l : list JSON)
| JObject (o : list (string * JSON)).
Set Elimination Schemes.

(** [req.body].  The handlers destructure [title], [description] and
    [completed] out of it at the types [CreateTodoInput] and
    [UpdateTodoInput] declare ([None] is [undefined], the key is absent);
    [body_rest] holds every other key the client sent. *)
Record Body : Type := {
  body_title : option jsstring;
  body_description : option jsstring;
  body_completed : option bool;
  body_rest : list (string * JSON)
}.

(** The object [updateData] the PUT handler builds (routes, lines 116-119).
    A key is present or not; the key [description], when present, may hold
    [undefined] ([Some None]). *)
Record UpdateData : Type := {
  upd_title : option jsstring;
  upd_description : option (option jsstring);
  upd_completed : option bool
}.

Definition present {A : Type} (o : option A) : nat :=
  match o with Some _ => 1 | None => 0 end.

(** [Object.keys(updateData).length] *)
Definition keysLength (u : UpdateData) : nat :=
  present (upd_title u) + present (upd_description u) + present (upd_completed u).

(** Lines 116-119 of the routes. *)
Definition buildUpdateData (body : Body) : UpdateData :=
  {| upd_title := option_map trim (body_title body);
     upd_description :=
       option_map (fun d => trimOrUndefined (Some d)) (body_description body);
     upd_completed := body_completed body |}.

(** ** The schema of [models/Todo.ts] *)

(** Milliseconds since the epoch, as [Date] counts them. *)
Definition Time := Z.

Inductive ValidatorKind : Type :=
| required
| maxlength (limit : nat).

(** A Mongoose [ValidationError]: the failing paths, each with the validator
    that failed. *)
Inductive Error : Type :=
| ValidationError (errors : list (string * ValidatorKind)).

(** The options of a String path of the schema. *)
Record PathOptions : Type := {
  opt_required : bool;
  opt_trim : bool;
  opt_maxlength : option nat
}.

(** [title: { type: String, required: [...], trim: true, maxlength: [100, ...] }] *)
Definition titleOptions : PathOptions :=
  {| opt_required := true; opt_trim := true; opt_maxlength := Some 100 |}.

(** [description: { type: String, trim: true, maxlength: [500, ...] }] *)
Definition descriptionOptions : PathOptions :=
  {| opt_required := false; opt_trim := true; opt_maxlength := Some 500 |}.

(** The setters of a path, run when a value is assigned to it. *)
Definition applySetters (o : PathOptions) (v : jsstring) : jsstring :=
  if opt_trim o then trim v else v.

(** The validators of a path, [required] first; the first failure is the
    path's error.  A string passes [required] when its length is not zero and
    [maxlength] when its length does not exceed the limit. *)
Definition validatePath (path : string) (o : PathOptions) (v : option jsstring)
  : list (string * ValidatorKind) :=
  match v with
  | None => if opt_required o then [(path, required)] else []
  | Some s =>
      if opt_required o && isEmpty s then [(path, required)]
      else match opt_maxlength o with
           | Some limit =>
               if (limit <? List.length s)%nat then [(path, maxlength limit)] else []
           | None => []
           end
  end.

(** The same, on a path an update sets or leaves alone: update validators
    run on the paths of the update only. *)
Definition validateSet (path : string) (o : PathOptions) (v : option jsstring)
  : list (string * ValidatorKind) :=
  match v with
  | None => []
  | Some _ => validatePath path o v
  end.

(** ** The identifier format

    [mongoose.Types.ObjectId] is taken as given: the type of identifiers,
    the syntactic check [isValid] on a path parameter, and the cast of a
    path parameter to the identifier it denotes. *)
Class ObjectIdFormat : Type := {
  ObjectId : Type;
  ObjectId_eq_dec : forall a b : ObjectId, {a = b} + {a <> b};
  isValid : string -> bool;
  castObjectId : string -> ObjectId
}.

Section Todos.

Context {F : ObjectIdFormat}.

(** ** Documents and the store *)

(** [ITodo]: a stored document. *)
Record ITodo : Type := {
  _id : ObjectId;
  title : jsstring;
  description : option jsstring;
  completed : bool;
  createdAt : Time;
  updatedAt : Time
}.

(** A document built by [new Todo({ title, description })] and not saved
    yet: setters have run, the default of [completed] is filled in and the
    identifier is chosen; timestamps come with [save]. *)
Record NewTodo : Type := {
  new_id : ObjectId;
  new_title : jsstring;
  new_description : option jsstring;
  new_completed : bool
}.

(** The calls a handler can make on the model. *)
Inductive StoreCall : Type :=
| call_find
| call_findById (id : string)
| call_save (doc : NewTodo)
| call_findByIdAndUpdate (id : string) (update : UpdateData)
| call_findByIdAndDelete (id : string).

(** The collection, in insertion order, and the calls made on the model so
    far, oldest first. *)
Record Store : Type := {
  docs : list ITodo;
  calls : list StoreCall
}.

(** What a request takes from its surroundings: the clock reading
    timestamps are taken from and the identifier a new document gets. *)
Record Env : Type := {
  now : Time;
  newObjectId : ObjectId
}.

(** ** Promises over the store *)

Inductive Settled (A : Type) : Type :=
| Fulfilled (a : A)
| Rejected (e : Error).
Arguments Fulfilled {A} a.
Arguments Rejected {A} e.

Definition Async (A : Type) : Type := Store -> Settled A * Store.

Definition resolve {A : Type} (a : A) : Async A := fun s => (Fulfilled a, s).

Definition reject {A : Type} (e : Error) : Async A := fun s => (Rejected e, s).

(** [const x = await m; k x]: a rejection of [m] is thrown past [k]. *)
Definition await {A B : Type} (m : Async A) (k : A -> Async B) : Async B :=
  fun s =>
    match m s with
    | (Fulfilled a, s') => k a s'
    | (Rejected e, s') => (Rejected e, s')
    end.

(** [try { m } catch (error) { h error }], for a body that ends by sending a
    response. *)
Definition tryCatch {A : Type} (m : Async A) (h : Error -> A) : Store -> A * Store :=
  fun s =>
    match m s with
    | (Fulfilled a, s') => (a, s')
    | (Rejected e, s') => (h e, s')
    end.

Notation "x <- m ;; k" := (await m (fun x => k))
  (at level 61, m at next level, right associativity).

(** Record a call on the model. *)
Definition called (c : StoreCall) : Async unit :=
  fun s => (Fulfilled tt, {| docs := docs s; calls := calls s ++ [c] |}).

Definition getDocs : Async (list ITodo) := fun s => (Fulfilled (docs s), s).

Definition putDocs (l : list ITodo) : Async unit :=
  fun s => (Fulfilled tt, {| docs := l; calls := calls s |}).

(** ** The model [Todo] *)

Definition hasId (oid : ObjectId) (t : ITodo) : bool :=
  if ObjectId_eq_dec (_id t) oid then true else false.

(** [.sort({ createdAt: -1 })]: newest first, documents of equal [createdAt]
    in the order of the collection. *)
Fixpoint insertDesc (t : ITodo) (l : list ITodo) : list ITodo :=
  match l with
  | [] => [t]
  | u :: r =>
      if (createdAt u <=? createdAt t)%Z then t :: l else u :: insertDesc t r
  end.

Definition sortCreatedAtDesc (l : list ITodo) : list ITodo :=
  fold_right insertDesc [] l.

(** The order of a list sorted so: no document is followed by a newer one. *)
Definition newerFirst (a b : ITodo) : Prop := (createdAt b <= createdAt a)%Z.

(** [Todo.find().sort({ createdAt: -1 })] *)
Definition find_sort : Async (list ITodo) :=
  _ <- called call_find ;;
  l <- getDocs ;;
  resolve (sortCreatedAtDesc l).

(** [Todo.findById(id)] *)
Definition findById (id : string) : Async (option ITodo) :=
  _ <- called (call_findById id) ;;
  l <- getDocs ;;
  resolve (List.find (hasId (castObjectId id)) l).

(** [new Todo({ title, description })]: the setters of the schema run on the
    values given, [completed] takes its default. *)
Definition newTodo (e : Env) (title : jsstring) (description : option jsstring)
  : NewTodo :=
  {| new_id := newObjectId e;
     new_title := applySetters titleOptions title;
     new_description := option_map (applySetters descriptionOptions) description;
     new_completed := false |}.

(** [doc.save()] on a new document: validation against the schema, then the
    timestamps ([timestamps: true] gives a new document one clock reading for
    both), then the insert. *)
Definition save (e : Env) (doc : NewTodo) : Async ITodo :=
  _ <- called (call_save doc) ;;
  match validatePath "title" titleOptions (Some (new_title doc))
        ++ validatePath "description" descriptionOptions (new_description doc) with
  | [] =>
      let saved :=
        {| _id := new_id doc;
           title := new_title doc;
           description := new_description doc;
           completed := new_completed doc;
           createdAt := now e;
           updatedAt := now e |} in
      l <- getDocs ;;
      _ <- putDocs (l ++ [saved]) ;;
      resolve saved
  | errors => reject (ValidationError errors)
  end.

(** The update Mongoose sends for [updateData].  Casting an update removes
    the keys that hold [undefined]: Mongoose 6 and later do so for every
    update (what the query option [omitUndefined] asked for in Mongoose 5),
    so [{ description: undefined }] sets nothing.  The values left go
    through the setters of their paths. *)
Record SetFields : Type := {
  set_title : option jsstring;
  set_description : option jsstring;
  set_completed : option bool
}.

Definition castUpdate (u : UpdateData) : SetFields :=
  {| set_title := option_map (applySetters titleOptions) (upd_title u);
     set_description :=
       match upd_description u with
       | Some (Some d) => Some (applySetters descriptionOptions d)
       | _ => None
       end;
     set_completed := upd_completed u |}.

Definition orElse {A : Type} (o : option A) (d : A) : A :=
  match o with Some a => a | None => d end.

(** [$set] of the fields of the update on one document; [timestamps: true]
    adds [updatedAt] to every update and never touches [createdAt]. *)
Definition applyUpdate (e : Env) (f : SetFields) (t : ITodo) : ITodo :=
  {| _id := _id t;
     title := orElse (set_title f) (title t);
     description :=
       match set_description f with
       | Some d => Some d
       | None => description t
       end;
     completed := orElse (set_completed f) (completed t);
     createdAt := createdAt t;
     updatedAt := now e |}.

(** Replace the first document with the identifier. *)
Fixpoint updateFirst (oid : ObjectId) (g : ITodo -> ITodo) (l : list ITodo)
  : list ITodo :=
  match l with
  | [] => []
  | t :: r => if hasId oid t then g t :: r else t :: updateFirst oid g r
  end.

(** Remove the first document with the identifier. *)
Fixpoint removeFirst (oid : ObjectId) (l : list ITodo) : list ITodo :=
  match l with
  | [] => []
  | t :: r => if hasId oid t then r else t :: removeFirst oid r
  end.

(** [Todo.findByIdAndUpdate(id, updateData, { new: true, runValidators: true })]:
    the update validators run on the paths the update sets before anything
    is sent; then one atomic find-and-modify, answering the document as it
    is after the update, or [null] when no document has the identifier. *)
Definition findByIdAndUpdate (e : Env) (id : string) (u : UpdateData)
  : Async (option ITodo) :=
  _ <- called (call_findByIdAndUpdate id u) ;;
  let f := castUpdate u in
  match validateSet "title" titleOptions (set_title f)
        ++ validateSet "description" descriptionOptions (set_description f) with
  | [] =>
      l <- getDocs ;;
      match List.find (hasId (castObjectId id)) l with
      | Some t =>
          _ <- putDocs (updateFirst (castObjectId id) (applyUpdate e f) l) ;;
          resolve (Some (applyUpdate e f t))
      | None => resolve None
      end
  | errors => reject (ValidationError errors)
  end.

(** [Todo.findByIdAndDelete(id)] *)
Definition findByIdAndDelete (id : string) : Async (option ITodo) :=
  _ <- called (call_findByIdAndDelete id) ;;
  l <- getDocs ;;
  match List.find (hasId (castObjectId id)) l with
  | Some t =>
      _ <- putDocs (removeFirst (castObjectId id) l) ;;
      resolve (Some t)
  | None => resolve None
  end.

(** ** Responses *)

Inductive Data : Type :=
| One (t : ITodo)
| Many (l : list ITodo).

(** The JSON object a handler sends; [None] is a key it leaves out.
    [error] holds the error caught, whose [message] the handler sends. *)
Record Envelope : Type := {
  success : bool;
  message : option string;
  data : option Data;
  count : option nat;
  error : option Error
}.

(** [res.status(status).json(json)] *)
Record Response : Type := {
  status : nat;
  json : Envelope
}.

(** [{ success: false, message }] *)
Definition failure (code : nat) (msg : string) : Response :=
  {| status := code;
     json := {| success := false; message := Some msg; data := None;
                count := None; error := None |} |}.

(** [{ success: false, message, error: error.message }], status 500: what
    every [catch] block sends. *)
Definition caught (msg : string) (err : Error) : Response :=
  {| status := 500;
     json := {| success := false; message := Some msg; data := None;
                count := None; error := Some err |} |}.

(** [{ success: true, message, data }] *)
Definition done (code : nat) (msg : string) (t : ITodo) : Response :=
  {| status := code;
     json := {| success := true; message := Some msg; data := Some (One t);
                count := None; error := None |} |}.

Definition invalidId : Response := failure 400 "Invalid todo ID format".

Definition notFound : Response := failure 404 "Todo not found".

Definition titleRequired : Response := failure 400 "Title is required".

Definition noFields : Response :=
  failure 400
    "At least one field (title, description, or completed) must be provided for update".

(** ** The route handlers *)

Definition Handler : Type := Store -> Response * Store.

(** [GET /api/todos] *)
Definition getTodos : Handler :=
  tryCatch
    (todos <- find_sort ;;
     resolve {| status := 200;
                json := {| success := true; message := None;
                           data := Some (Many todos);
                           count := Some (List.length todos);
                           error := None |} |})
    (caught "Failed to fetch todos").

(** [GET /api/todos/:id] *)
Definition getTodo (id : string) : Handler :=
  tryCatch
    (if negb (isValid id) then resolve invalidId
     else
       todo <- findById id ;;
       match todo with
       | None => resolve notFound
       | Some t =>
           resolve {| status := 200;
                      json := {| success := true; message := None;
                                 data := Some (One t); count := None;
                                 error := None |} |}
       end)
    (caught "Failed to fetch todo").

(** [POST /api/todos].  Only [title] and [description] are read from the
    body; the test of line 70 is [!title || title.trim() === ''], and the
    empty string is falsy. *)
Definition postTodo (e : Env) (body : Body) : Handler :=
  tryCatch
    (match body_title body with
     | None => resolve titleRequired
     | Some t =>
         if isEmpty t || isEmpty (trim t) then resolve titleRequired
         else
           let doc := newTodo e (trim t) (trimOrUndefined (body_description body)) in
           savedTodo <- save e doc ;;
           resolve (done 201 "Todo created successfully" savedTodo)
     end)
    (caught "Failed to create todo").

(** [PUT /api/todos/:id] *)
Definition putTodo (e : Env) (id : string) (body : Body) : Handler :=
  tryCatch
    (if negb (isValid id) then resolve invalidId
     else
       let updateData := buildUpdateData body in
       if (keysLength updateData =? 0)%nat then resolve noFields
       else
         updatedTodo <- findByIdAndUpdate e id updateData ;;
         match updatedTodo with
         | None => resolve notFound
         | Some t => resolve (done 200 "Todo updated successfully" t)
         end)
    (caught "Failed to update todo").

(** [DELETE /api/todos/:id] *)
Definition deleteTodo (id : string) : Handler :=
  tryCatch
    (if negb (isValid id) then resolve invalidId
     else
       deletedTodo <- findByIdAndDelete id ;;
       match deletedTodo with
       | None => resolve notFound
       | Some t => resolve (done 200 "Todo deleted successfully" t)
       end)
    (caught "Failed to delete todo").

(** The requests the router serves. *)
Inductive Request : Type :=
| GET_todos
| GET_todo (id : string)
| POST_todo (body : Body)
| PUT_todo (id : string) (body : Body)
| DELETE_todo (id : string).

Definition router (e : Env) (r : Request) : Handler :=
  match r with
  | GET_todos => getTodos
  | GET_todo id => getTodo id
  | POST_todo body => postTodo e body
  | PUT_todo id body => putTodo e id body
  | DELETE_todo id => deleteTodo id
  end.

End Todos.

(** ** A concrete identifier format

    Twenty-four hexadecimal digits, read without regard to case: the format
    the examples below run the handlers with. *)

Definition isHexDigit (c : ascii) : bool :=
  let n := nat_of_ascii c in
  ((48 <=? n) && (n <=? 57) || (65 <=? n) && (n <=? 70)
   || (97 <=? n) && (n <=? 102))%nat.

Fixpoint allHex (s : string) : bool :=
  match s with
  | EmptyString => true
  | String c r => isHexDigit c && allHex r
  end.

Definition lowerHex (c : ascii) : ascii :=
  let n := nat_of_ascii c in
  if ((65 <=? n) && (n <=? 70))%nat then ascii_of_nat (n + 32) else c.

Fixpoint lowercase (s : string) : string :=
  match s with
  | EmptyString => EmptyString
  | String c r => String (lowerHex c) (lowercase r)
  end.

Definition hex24 : ObjectIdFormat :=
  {| ObjectId := string;
     ObjectId_eq_dec := string_dec;
     isValid := fun id => ((String.length id =? 24)%nat && allHex id)%bool;
     castObjectId := lowercase |}.

(** Sample requests and stores under that format. *)
Module Sample.

Definition oid (hex : string) : ObjectId (ObjectIdFormat := hex24) := hex.

Definition env : Env (F := hex24) :=
  {| now := 1000%Z; newObjectId := oid "64b7f0c2a1d3e4f506172839" |}.

(** A second request served at the clock reading of the last write. *)
Definition sameTick : Env (F := hex24) :=
  {| now := 100%Z; newObjectId := oid "64b7f0c2a1d3e4f50617283a" |}.

Definition milkId : string := "64b7f0c2a1d3e4f506172801".

Definition milk : ITodo (F := hex24) :=
  {| _id := oid milkId;
     title := js "Buy milk";
     description := Some (js "two litres");
     completed := false;
     createdAt := 100%Z;
     updatedAt := 100%Z |}.

Definition bread : ITodo (F := hex24) :=
  {| _id := oid "64b7f0c2a1d3e4f506172802";
     title := js "Bread";
     description := None;
     completed := true;
     createdAt := 250%Z;
     updatedAt := 300%Z |}.

Definition empty : Store (F := hex24) := {| docs := []; calls := [] |}.

Definition pantry : Store (F := hex24) := {| docs := [milk; bread]; calls := [] |}.

Definition body (t d : option jsstring) (c : option bool) : Body :=
  {| body_title := t; body_description := d; body_completed := c;
     body_rest := [] |}.

(** A title of 101 code units. *)
Definition longTitle : jsstring := repeat 97%N 101.

(** [{ "title": "Tea", "completed": true, "_id": "...", "createdAt": 5 }] *)
Definition nosy : Body :=
  {| body_title := Some (js "Tea"); body_description := None;
     body_completed := Some true;
     body_rest := [("_id"%string, JString (js "64b7f0c2a1d3e4f506172801"));
                   ("createdAt"%string, JNumber 5)] |}.

End Sample.

(** ** Notions the properties of the handlers are stated with *)

Section Notions.

Context {F : ObjectIdFormat}.

(** The answer of [GET /api/todos/:id] for a document found (routes,
    lines 50-53). *)
Definition fetched (t : ITodo) : Response :=
  {| status := 200;
     json := {| success := true; message := None; data := Some (One t);
                count := None; error := None |} |}.

(** The answer of [GET /api/todos] (routes, lines 11-15). *)
Definition listed (todos : list ITodo) : Response :=
  {| status := 200;
     json := {| success := true; message := None; data := Some (Many todos);
                count := Some (List.length todos); error := None |} |}.

(** The store after one more call on the model. *)
Definition logged (c : StoreCall) (s : Store) : Store :=
  {| docs := docs s; calls := calls s ++ [c] |}.

(** The document [save] stores for a title and a description. *)
Definition created (e : Env) (t : jsstring) (d : option jsstring) : ITodo :=
  {| _id := newObjectId e; title := t; description := d; completed := false;
     createdAt := now e; updatedAt := now e |}.

(** No document of the collection has the identifier. *)
Definition absent (oid : ObjectId) (l : list ITodo) : Prop :=
  Forall (fun t => _id t <> oid) l.

(** A document as the schema wants it: title and description pass their
    validators and are what their setters make of them, and the description
    is not the empty string. *)
Definition conforms (t : ITodo) : Prop :=
  validatePath "title" titleOptions (Some (title t)) = [] /\
  validatePath "description" descriptionOptions (description t) = [] /\
  applySetters titleOptions (title t) = title t /\
  option_map (applySetters descriptionOptions) (description t) = description t /\
  description t <> Some [].

(** A response whose envelope agrees with its status: one of the five
    statuses the handlers send, [success] on 200 and 201 only, [data] on
    success only, [error] on 500 only, and a [message] on every failure. *)
Definition coherent (resp : Response) : Prop :=
  In (status resp) [200; 201; 400; 404; 500] /\
  (success (json resp) = true <-> status resp = 200 \/ status resp = 201) /\
  (data (json resp) <> None <-> success (json resp) = true) /\
  (error (json resp) <> None <-> status resp = 500) /\
  (success (json resp) = false -> message (json resp) <> None).

(** A body the update handler and the update validators let through: one
    of the three fields is there, a title sent is not blank and at most 100
    code units long after trimming, a description sent is at most 500 code
    units long after trimming. *)
Definition updatable (body : Body) : Prop :=
  ~ (body_title body = None /\ body_description body = None /\
     body_completed body = None) /\
  (forall t, body_title body = Some t ->
     trim t <> [] /\ (List.length (trim t) <= 100)%nat) /\
  (forall d, body_description body = Some d ->
     (List.length (trim d) <= 500)%nat).

(** A document whose last write is not before its creation. *)
Definition ordered (t : ITodo) : Prop := (createdAt t <= updatedAt t)%Z.

(** The requests that carry a path identifier. *)
Definition pathId (r : Request) : option string :=
  match r with
  | GET_todo id | PUT_todo id _ | DELETE_todo id => Some id
  | GET_todos | POST_todo _ => None
  end.

End Notions.

(** ** Facts about [trim] *)

Lemma trimStart_head (s : jsstring) :
  match trimStart s with
  | [] => True
  | c :: _ => isWhiteSpace c = false
  end.
Proof.
  induction s as [|d s IH]; simpl; [exact I|].
  destruct (isWhiteSpace d) eqn:E; [exact IH | exact E].
Qed.

Lemma trimStart_fixed (s : jsstring) :
  match s with [] => True | c :: _ => isWhiteSpace c = false end ->
  trimStart s = s.
Proof.
  destruct s as [|c r]; simpl; [reflexivity|].
  now intros ->.
Qed.

Lemma trimStart_idem (s : jsstring) : trimStart (trimStart s) = trimStart s.
Proof. apply trimStart_fixed, trimStart_head. Qed.

Lemma trimEnd_idem (s : jsstring) : trimEnd (trimEnd s) = trimEnd s.
Proof.
  unfold trimEnd. now rewrite rev_involutive, trimStart_idem.
Qed.

(** Stripping the tail keeps a non-white head in place. *)
Lemma trimEnd_cons_nonwhite (c : N) (r : jsstring) :
  isWhiteSpace c = false -> trimEnd (c :: r) = c :: trimEnd r.
Proof.
  intros Hc. unfold trimEnd. simpl rev.
  assert (H : trimStart (rev r ++ [c]) = trimStart (rev r) ++ [c]).
  { induction (rev r) as [|d t IH]; simpl.
    - now rewrite Hc.
    - destruct (isWhiteSpace d); [exact IH | reflexivity]. }
  rewrite H, rev_app_distr. reflexivity.
Qed.

Lemma trimStart_trim (s : jsstring) : trimStart (trim s) = trim s.
Proof.
  unfold trim. pose proof (trimStart_head s) as H.
  destruct (trimStart s) as [|c r]; [reflexivity|].
  rewrite (trimEnd_cons_nonwhite c r H). simpl. now rewrite H.
Qed.

(** Trimming is idempotent: the schema setter [trim: true] leaves a value the
    handler has already trimmed as it is. *)
Lemma trim_idem (s : jsstring) : trim (trim s) = trim s.
Proof.
  unfold trim at 1. rewrite trimStart_trim.
  unfold trim. apply trimEnd_idem.
Qed.

Lemma trim_nil_of_nil (s : jsstring) : trim s <> [] -> s <> [].
Proof. intros H ->. now apply H. Qed.

Lemma isEmpty_false (s : jsstring) : s <> [] -> isEmpty s = false.
Proof. destruct s; [congruence | reflexivity]. Qed.

(** What [description?.trim() || undefined] evaluates to. *)
Lemma trimOrUndefined_eq (d : option jsstring) :
  trimOrUndefined d =
  match d with
  | Some x => if isEmpty (trim x) then None else Some (trim x)
  | None => None
  end.
Proof.
  destruct d as [x|]; [|reflexivity].
  unfold trimOrUndefined. simpl. now destruct (trim x).
Qed.

Lemma trimOrUndefined_trimmed (d : option jsstring) (x : jsstring) :
  trimOrUndefined d = Some x -> trim x = x /\ x <> [].
Proof.
  rewrite trimOrUndefined_eq. destruct d as [y|]; [|discriminate].
  destruct (trim y) eqn:E; simpl; [discriminate|].
  intros [= <-]. split; [|discriminate].
  rewrite <- E. apply trim_idem.
Qed.

(** ** Facts about the schema validators *)

Lemma title_passes (t : jsstring) :
  t <> [] -> (List.length t <= 100)%nat ->
  validatePath "title" titleOptions (Some t) = [].
Proof.
  intros Hne Hlen. unfold validatePath, titleOptions; simpl.
  rewrite (isEmpty_false t Hne).
  destruct (Nat.ltb_spec 100 (List.length t)); [lia | reflexivity].
Qed.

Lemma title_too_long (t : jsstring) :
  (100 < List.length t)%nat ->
  validatePath "title" titleOptions (Some t) = [("title"%string, maxlength 100)].
Proof.
  intros Hlen. unfold validatePath, titleOptions; simpl.
  destruct t as [|c r]; [simpl in Hlen; lia|]. simpl isEmpty.
  destruct (Nat.ltb_spec 100 (List.length (c :: r))); [reflexivity | lia].
Qed.

Lemma description_passes (d : option jsstring) :
  (forall x, d = Some x -> (List.length x <= 500)%nat) ->
  validatePath "description" descriptionOptions d = [].
Proof.
  intros H. destruct d as [x|]; [|reflexivity].
  unfold validatePath, descriptionOptions; simpl.
  destruct (Nat.ltb_spec 500 (List.length x)); [|reflexivity].
  specialize (H x eq_refl). lia.
Qed.

(** The setters of the schema leave the values the handlers pass as they
    are: the handlers have trimmed them. *)
Lemma title_setter (t : jsstring) : applySetters titleOptions (trim t) = trim t.
Proof. unfold applySetters; simpl. apply trim_idem. Qed.

Lemma description_setter (d : option jsstring) :
  option_map (applySetters descriptionOptions) (trimOrUndefined d)
  = trimOrUndefined d.
Proof.
  destruct (trimOrUndefined d) as [x|] eqn:E; [|reflexivity].
  unfold applySetters; simpl.
  now destruct (trimOrUndefined_trimmed d x E) as [-> _].
Qed.

(** ** Facts about the sort of [find] *)

Section Collection.

Context {F : ObjectIdFormat}.

Lemma insertDesc_perm (t : ITodo) (l : list ITodo) :
  Permutation (t :: l) (insertDesc t l).
Proof.
  induction l as [|u r IH]; simpl; [reflexivity|].
  destruct (createdAt u <=? createdAt t)%Z; [reflexivity|].
  rewrite perm_swap. now constructor.
Qed.

Lemma sortCreatedAtDesc_perm (l : list ITodo) :
  Permutation l (sortCreatedAtDesc l).
Proof.
  induction l as [|t l IH]; simpl; [constructor|].
  rewrite <- insertDesc_perm. now constructor.
Qed.

Lemma insertDesc_sorted (t : ITodo) (l : list ITodo) :
  StronglySorted newerFirst l -> StronglySorted newerFirst (insertDesc t l).
Proof.
  induction 1 as [|u r Hs IH Hall]; simpl.
  - repeat constructor.
  - destruct (Z.leb_spec (createdAt u) (createdAt t)) as [Hle|Hlt].
    + constructor; [now constructor|].
      constructor; [exact Hle|].
      eapply Forall_impl; [|exact Hall].
      unfold newerFirst. intros; lia.
    + constructor; [exact IH|].
      rewrite <- insertDesc_perm.
      constructor; [unfold newerFirst; lia | exact Hall].
Qed.

Lemma sortCreatedAtDesc_sorted (l : list ITodo) :
  StronglySorted newerFirst (sortCreatedAtDesc l).
Proof.
  induction l as [|t l IH]; simpl; [constructor|].
  now apply insertDesc_sorted.
Qed.

(** ** Facts about the collection *)

Lemma find_split (oid : ObjectId) (l : list ITodo) (t : ITodo) :
  List.find (hasId oid) l = Some t ->
  exists l1 l2,
    l = l1 ++ t :: l2 /\ hasId oid t = true /\
    Forall (fun u => hasId oid u = false) l1.
Proof.
  induction l as [|u r IH]; simpl; [discriminate|].
  destruct (hasId oid u) eqn:E.
  - intros [= ->]. exists [], r. repeat split; [exact E | constructor].
  - intros H. destruct (IH H) as (l1 & l2 & -> & Ht & Hall).
    exists (u :: l1), l2. repeat split; [exact Ht | now constructor].
Qed.

Lemma updateFirst_split (oid : ObjectId) (g : ITodo -> ITodo)
      (l1 l2 : list ITodo) (t : ITodo) :
  Forall (fun u => hasId oid u = false) l1 -> hasId oid t = true ->
  updateFirst oid g (l1 ++ t :: l2) = l1 ++ g t :: l2.
Proof.
  intros Hall Ht. induction Hall as [|u r Hu _ IH]; simpl.
  - now rewrite Ht.
  - now rewrite Hu, IH.
Qed.

End Collection.

(** ** The handlers *)

Arguments validatePath : simpl never.
Arguments validateSet : simpl never.
Arguments trim : simpl never.
Arguments applySetters : simpl never.

Ltac run_handler :=
  unfold router, getTodos, getTodo, postTodo, putTodo, deleteTodo, tryCatch,
    find_sort, findById, save, findByIdAndUpdate, findByIdAndDelete,
    await, called, getDocs, putDocs, resolve, reject; simpl.

(** C1: a Get, Update or Delete request whose path identifier fails the
    format check is answered 400 "Invalid todo ID format", and the store is
    left as it was: no document changed and no call on the model recorded. *)
Theorem invalid_id_short_circuits {F : ObjectIdFormat}
        (e : Env) (r : Request) (id : string) (s : Store) :
  isValid id = false ->
  r = GET_todo id \/ (exists body, r = PUT_todo id body) \/ r = DELETE_todo id ->
  router e r s = (failure 400 "Invalid todo ID format", s).
Proof.
  intros Hid [-> | [[body ->] | ->]]; run_handler; now rewrite Hid.
Qed.

Lemma invalid_id_short_circuits_witness :
  router (F := hex24) Sample.env
         (PUT_todo "not-a-valid-id" (Sample.body None None (Some true)))
         Sample.pantry
  = (failure 400 "Invalid todo ID format", Sample.pantry).
Proof.
  apply (invalid_id_short_circuits (F := hex24) Sample.env
           (PUT_todo "not-a-valid-id" (Sample.body None None (Some true)))
           "not-a-valid-id" Sample.pantry).
  - reflexivity.
  - right; left. now exists (Sample.body None None (Some true)).
Defined.

(** C4: a create request whose title is absent, or trims to the empty
    string, is answered 400 "Title is required"; nothing is created and the
    model is not called. *)
Theorem create_without_title_is_400 {F : ObjectIdFormat}
        (e : Env) (body : Body) (s : Store) :
  body_title body = None \/ (exists t, body_title body = Some t /\ trim t = []) ->
  postTodo e body s = (failure 400 "Title is required", s).
Proof.
  intros [Hnone | (t & Ht & Hblank)]; run_handler.
  - now rewrite Hnone.
  - rewrite Ht, Hblank. simpl. now rewrite orb_true_r.
Qed.

Lemma create_without_title_is_400_witness :
  postTodo (F := hex24) Sample.env (Sample.body (Some (js "   ")) None None) Sample.pantry
  = (failure 400 "Title is required", Sample.pantry).
Proof.
  apply (create_without_title_is_400 (F := hex24)).
  right. exists (js "   "). split; reflexivity.
Defined.

(** C5: an update with a well-formed identifier and none of title,
    description and completed in the body is answered 400 "At least one
    field ... must be provided for update"; the store is left as it was and
    the model is not called. *)
Theorem update_without_fields_is_400 {F : ObjectIdFormat}
        (e : Env) (id : string) (body : Body) (s : Store) :
  isValid id = true ->
  body_title body = None ->
  body_description body = None ->
  body_completed body = None ->
  putTodo e id body s = (noFields, s).
Proof.
  intros Hid Ht Hd Hc. run_handler.
  unfold keysLength, buildUpdateData; simpl.
  now rewrite Hid, Ht, Hd, Hc.
Qed.

Lemma update_without_fields_is_400_witness :
  putTodo (F := hex24) Sample.env Sample.milkId (Sample.body None None None) Sample.pantry
  = (noFields, Sample.pantry).
Proof.
  apply (update_without_fields_is_400 (F := hex24)); reflexivity.
Defined.

(** C6: the count of fields is taken on the normalized update, where a
    title that is present keeps its key whatever it trims to.  An update
    with a well-formed identifier and a title, blank or not, is therefore
    not answered with the "at least one field" error: the model is called
    with the normalized update. *)
Theorem present_title_counts_as_field {F : ObjectIdFormat}
        (e : Env) (id : string) (body : Body) (t : jsstring) (s : Store) :
  isValid id = true ->
  body_title body = Some t ->
  upd_title (buildUpdateData body) = Some (trim t) /\
  keysLength (buildUpdateData body) <> 0%nat /\
  fst (putTodo e id body s) <> noFields /\
  calls (snd (putTodo e id body s))
  = calls s ++ [call_findByIdAndUpdate id (buildUpdateData body)].
Proof.
  intros Hid Ht.
  assert (Hk : exists n, keysLength (buildUpdateData body) = S n).
  { unfold keysLength, buildUpdateData; simpl. rewrite Ht. simpl. eauto. }
  destruct Hk as [n Hk].
  split; [unfold buildUpdateData; simpl; now rewrite Ht|].
  split; [rewrite Hk; discriminate|].
  run_handler. rewrite Hid, Hk. simpl.
  destruct (validateSet "title" titleOptions _ ++ validateSet "description" _ _);
    simpl.
  - destruct (List.find _ (docs s)); simpl; split; (discriminate || reflexivity).
  - split; [discriminate | reflexivity].
Qed.

Lemma present_title_counts_as_field_witness :
  fst (putTodo (F := hex24) Sample.env Sample.milkId
               (Sample.body (Some (js "")) None None) Sample.pantry)
  <> noFields.
Proof.
  apply (present_title_counts_as_field (F := hex24) Sample.env Sample.milkId
           (Sample.body (Some (js "")) None None) (js "") Sample.pantry);
    reflexivity.
Defined.

(** C9: whatever the collection holds, List answers 200 with every stored
    document, ordered so that no document is followed by a newer one, and
    with [count] the length of [data]. *)
Theorem list_is_newest_first {F : ObjectIdFormat} (s : Store) :
  exists todos,
    fst (getTodos s)
    = {| status := 200;
         json := {| success := true; message := None;
                    data := Some (Many todos);
                    count := Some (List.length todos);
                    error := None |} |}
    /\ Permutation (docs s) todos
    /\ StronglySorted newerFirst todos
    /\ docs (snd (getTodos s)) = docs s.
Proof.
  exists (sortCreatedAtDesc (docs s)). run_handler.
  repeat split.
  - apply sortCreatedAtDesc_perm.
  - apply sortCreatedAtDesc_sorted.
Qed.

(** C10: create reads the title and the description of the body and nothing
    else: two bodies that agree on these two fields get the same answer and
    leave the same store, whatever else they hold; and the document of a
    201 answer has [completed = false], the identifier chosen for the new
    document and the clock reading of the request for both timestamps. *)
Theorem create_reads_title_and_description_only {F : ObjectIdFormat}
        (e : Env) (body body' : Body) (s : Store) :
  body_title body' = body_title body ->
  body_description body' = body_description body ->
  postTodo e body' s = postTodo e body s /\
  forall (t : ITodo),
    data (json (fst (postTodo e body s))) = Some (One t) ->
    status (fst (postTodo e body s)) = 201 /\
    completed t = false /\ _id t = newObjectId e /\
    createdAt t = now e /\ updatedAt t = now e.
Proof.
  intros Ht Hd. split.
  - unfold postTodo. now rewrite Ht, Hd.
  - intros t. run_handler.
    destruct (body_title body) as [x|]; simpl; [|discriminate].
    destruct (isEmpty x || isEmpty (trim x)); simpl; [discriminate|].
    destruct (validatePath _ _ _ ++ validatePath _ _ _); simpl; [|discriminate].
    intros [= <-]. simpl. repeat split.
Qed.

Lemma create_reads_title_and_description_only_witness :
  postTodo (F := hex24) Sample.env Sample.nosy Sample.empty
  = postTodo (F := hex24) Sample.env (Sample.body (Some (js "Tea")) None None)
             Sample.empty.
Proof.
  apply (create_reads_title_and_description_only (F := hex24) Sample.env
           (Sample.body (Some (js "Tea")) None None) Sample.nosy Sample.empty);
    reflexivity.
Defined.

(** C3, as the handler and the schema have it: a create request whose title
    is non-empty after trimming and then at most 100 code units long, and
    whose description, if any, is at most 500 code units long after
    trimming, is answered 201 with the stored document; its title is the
    trimmed title, [completed] is false, both timestamps are equal, and a
    description that is absent or blank after trimming is left unset. *)
Theorem create_valid_is_201 {F : ObjectIdFormat}
        (e : Env) (body : Body) (t : jsstring) (s : Store) :
  body_title body = Some t ->
  trim t <> [] ->
  (List.length (trim t) <= 100)%nat ->
  (forall d, body_description body = Some d -> (List.length (trim d) <= 500)%nat) ->
  exists saved,
    fst (postTodo e body s) = done 201 "Todo created successfully" saved /\
    docs (snd (postTodo e body s)) = docs s ++ [saved] /\
    title saved = trim t /\
    completed saved = false /\
    createdAt saved = updatedAt saved /\
    description saved =
      match body_description body with
      | Some d => if isEmpty (trim d) then None else Some (trim d)
      | None => None
      end.
Proof.
  intros Ht Hne Hlen Hdesc. run_handler. rewrite Ht.
  rewrite (isEmpty_false t (trim_nil_of_nil t Hne)), (isEmpty_false _ Hne).
  simpl. rewrite title_setter, description_setter.
  rewrite (title_passes (trim t) Hne Hlen). simpl.
  rewrite description_passes.
  - eexists. simpl. repeat split. apply trimOrUndefined_eq.
  - intros x. rewrite trimOrUndefined_eq.
    destruct (body_description body) as [d|]; [|discriminate].
    destruct (isEmpty (trim d)); [discriminate|].
    intros [= <-]. now apply Hdesc.
Qed.

Lemma create_valid_is_201_witness :
  exists saved,
    fst (postTodo (F := hex24) Sample.env
                  (Sample.body (Some (js " Buy milk ")) (Some (js "  ")) None)
                  Sample.empty)
    = done 201 "Todo created successfully" saved /\
    title saved = js "Buy milk" /\ description saved = None.
Proof.
  destruct (create_valid_is_201 (F := hex24) Sample.env
              (Sample.body (Some (js " Buy milk ")) (Some (js "  ")) None)
              (js " Buy milk ") Sample.empty) as (saved & Hr & _ & Ht & _ & _ & Hd).
  - reflexivity.
  - discriminate.
  - simpl. lia.
  - intros d [= <-]. simpl. lia.
  - exists saved. repeat split; assumption.
Defined.

(** C3 as stated fails: a title of 101 code units is present and non-empty
    after trimming, and so is the title "Tea" sent with a description of 501
    code units; neither request is answered 201. *)
Lemma create_overlong_is_not_201 :
  trim Sample.longTitle <> [] /\
  status (fst (postTodo (F := hex24) Sample.env
                        (Sample.body (Some Sample.longTitle) None None)
                        Sample.empty)) <> 201 /\
  trim (js "Tea") <> [] /\
  status (fst (postTodo (F := hex24) Sample.env
                        (Sample.body (Some (js "Tea")) (Some (repeat 98%N 501)) None)
                        Sample.empty)) <> 201.
Proof.
  repeat split; vm_compute; discriminate.
Qed.

(** C8, as the model call has it: an update answered 200 found a document
    with the identifier and answers it with the fields of the normalized
    update written over it.  A field the body leaves out keeps its value,
    the identifier and [createdAt] are kept, [updatedAt] is the clock
    reading of the request, and every other document of the collection is
    untouched.  In particular an update of [completed] alone keeps title and
    description, and [updatedAt] grows strictly when the clock reading is
    later than the [updatedAt] the document had. *)
Theorem update_overwrites_present_fields {F : ObjectIdFormat}
        (e : Env) (id : string) (body : Body) (s : Store) :
  status (fst (putTodo e id body s)) = 200 ->
  exists (old new : ITodo) (before after : list ITodo),
    fst (putTodo e id body s) = done 200 "Todo updated successfully" new /\
    docs s = before ++ old :: after /\
    docs (snd (putTodo e id body s)) = before ++ new :: after /\
    List.find (hasId (castObjectId id)) (docs s) = Some old /\
    _id new = _id old /\
    createdAt new = createdAt old /\
    updatedAt new = now e /\
    title new = match body_title body with
                | Some t => trim t
                | None => title old
                end /\
    description new = match trimOrUndefined (body_description body) with
                      | Some d => Some d
                      | None => description old
                      end /\
    completed new = match body_completed body with
                    | Some c => c
                    | None => completed old
                    end /\
    ((updatedAt old < now e)%Z -> (updatedAt old < updatedAt new)%Z).
Proof.
  run_handler.
  destruct (isValid id); simpl; [|discriminate].
  destruct (keysLength (buildUpdateData body) =? 0)%nat; simpl; [discriminate|].
  destruct (validateSet _ _ _ ++ validateSet _ _ _); simpl; [|discriminate].
  destruct (List.find (hasId (castObjectId id)) (docs s)) as [old|] eqn:Hfind;
    simpl; [|discriminate].
  intros _.
  destruct (find_split _ _ _ Hfind) as (before & after & Hdocs & Hold & Hbefore).
  exists old, (applyUpdate e (castUpdate (buildUpdateData body)) old), before, after.
  split; [reflexivity|].
  split; [exact Hdocs|].
  split; [rewrite Hdocs; now apply updateFirst_split|].
  split; [reflexivity|].
  unfold applyUpdate, castUpdate, buildUpdateData; simpl.
  repeat split.
  - destruct (body_title body) as [t|]; simpl; [apply title_setter | reflexivity].
  - destruct (body_description body) as [d|]; simpl; [|reflexivity].
    pose proof (description_setter (Some d)) as Hset.
    destruct (trimOrUndefined (Some d)) as [x|]; simpl in *; [|reflexivity].
    exact Hset.
  - trivial.
Qed.

Lemma update_overwrites_present_fields_witness :
  exists old new before after,
    fst (putTodo (F := hex24) Sample.env Sample.milkId
                 (Sample.body None None (Some true)) Sample.pantry)
    = done 200 "Todo updated successfully" new /\
    docs Sample.pantry = before ++ old :: after /\
    title new = title old /\
    (updatedAt old < updatedAt new)%Z.
Proof.
  destruct (update_overwrites_present_fields (F := hex24) Sample.env
              Sample.milkId (Sample.body None None (Some true)) Sample.pantry)
    as (old & new & before & after & Hr & Hd & _ & Hf & _ & _ & _ & Ht & _ & _ & Hu).
  - reflexivity.
  - exists old, new, before, after. repeat split; try assumption.
    apply Hu. vm_compute in Hf. injection Hf as <-. reflexivity.
Defined.

(** C8 as stated fails: an update of [completed] alone, served at the clock
    reading the document was last written at, is answered 200 with an
    [updatedAt] that has not grown. *)
Lemma update_same_tick_keeps_updatedAt :
  exists new,
    fst (putTodo (F := hex24) Sample.sameTick Sample.milkId
                 (Sample.body None None (Some true)) Sample.pantry)
    = done 200 "Todo updated successfully" new /\
    List.find (hasId (castObjectId Sample.milkId)) (docs Sample.pantry)
    = Some Sample.milk /\
    ~ (updatedAt Sample.milk < updatedAt new)%Z.
Proof.
  eexists. split; [vm_compute; reflexivity|].
  split; [reflexivity|]. vm_compute. discriminate.
Qed.

(** An over-long title on create: the handler lets it through, [save]
    rejects it and the [catch] block answers 500. *)
Lemma create_overlong_title_rejected {F : ObjectIdFormat}
      (e : Env) (body : Body) (t : jsstring) (s : Store) :
  body_title body = Some t ->
  (100 < List.length (trim t))%nat ->
  fst (postTodo e body s)
  = caught "Failed to create todo"
           (ValidationError
              (("title"%string, maxlength 100)
               :: validatePath "description" descriptionOptions
                    (trimOrUndefined (body_description body)))) /\
  docs (snd (postTodo e body s)) = docs s.
Proof.
  intros Ht Hlen.
  assert (Hne : trim t <> []) by (intros E; rewrite E in Hlen; simpl in Hlen; lia).
  run_handler. rewrite Ht.
  rewrite (isEmpty_false t (trim_nil_of_nil t Hne)), (isEmpty_false _ Hne).
  simpl. rewrite title_setter, description_setter.
  rewrite (title_too_long (trim t) Hlen). simpl. split; reflexivity.
Qed.

(** A blank title on update: it counts as a field, the [required] validator
    rejects it and the [catch] block answers 500. *)
Example update_blank_title_is_500 :
  fst (putTodo (F := hex24) Sample.env Sample.milkId
               (Sample.body (Some (js "  ")) None None) Sample.pantry)
  = caught "Failed to update todo"
           (ValidationError [("title"%string, required)]).
Proof. reflexivity. Qed.

(** C2, at the failing input: a create whose trimmed title is 101 code
    units long passes the check of the handler and is rejected by the
    [maxlength] validator of the schema on [save]; the [catch] block of the
    handler answers 500 "Failed to create todo", not 400. *)
Theorem create_overlong_title_is_500 :
  postTodo (F := hex24) Sample.env
           (Sample.body (Some Sample.longTitle) None None) Sample.empty
  = (caught "Failed to create todo"
            (ValidationError [("title"%string, maxlength 100)]),
     {| docs := [];
        calls := [call_save (newTodo Sample.env Sample.longTitle None)] |})
  /\ status (caught (F := hex24) "Failed to create todo"
                    (ValidationError [("title"%string, maxlength 100)])) = 500.
Proof.
  split; vm_compute; reflexivity.
Qed.

(** C7, at the failing input: an update whose description is blank, on a
    document that has a description, is answered 200 "Todo updated
    successfully" with the description the document had: [updateData] holds
    the key [description] with the value [undefined], which is not part of
    the update sent, so the description is not unset. *)
Theorem update_blank_description_keeps_description :
  upd_description (buildUpdateData (Sample.body None (Some (js "   ")) None))
  = Some None /\
  exists new,
    fst (putTodo (F := hex24) Sample.env Sample.milkId
                 (Sample.body None (Some (js "   ")) None) Sample.pantry)
    = done 200 "Todo updated successfully" new /\
    description new = Some (js "two litres") /\
    description new <> None.
Proof.
  split; [reflexivity|].
  eexists. split; [vm_compute; reflexivity|].
  split; [reflexivity | discriminate].
Qed.

(** ** The handlers, case by case *)

Section Equations.

Context {F : ObjectIdFormat}.

Lemma getTodos_eq (s : Store) :
  getTodos s = (listed (sortCreatedAtDesc (docs s)), logged call_find s).
Proof. reflexivity. Qed.

Lemma getTodo_eq (id : string) (s : Store) :
  getTodo id s =
  if isValid id then
    (match List.find (hasId (castObjectId id)) (docs s) with
     | Some t => fetched t
     | None => notFound
     end, logged (call_findById id) s)
  else (invalidId, s).
Proof.
  run_handler. destruct (isValid id); simpl; [|reflexivity].
  now destruct (List.find _ (docs s)).
Qed.

Lemma deleteTodo_eq (id : string) (s : Store) :
  deleteTodo id s =
  if isValid id then
    match List.find (hasId (castObjectId id)) (docs s) with
    | Some t =>
        (done 200 "Todo deleted successfully" t,
         {| docs := removeFirst (castObjectId id) (docs s);
            calls := calls s ++ [call_findByIdAndDelete id] |})
    | None => (notFound, logged (call_findByIdAndDelete id) s)
    end
  else (invalidId, s).
Proof.
  run_handler. destruct (isValid id); simpl; [|reflexivity].
  now destruct (List.find _ (docs s)).
Qed.

Lemma postTodo_eq (e : Env) (body : Body) (s : Store) :
  postTodo e body s =
  match body_title body with
  | None => (titleRequired, s)
  | Some t =>
      if isEmpty (trim t) then (titleRequired, s)
      else
        let d := trimOrUndefined (body_description body) in
        let s1 := logged (call_save (newTodo e (trim t) d)) s in
        match validatePath "title" titleOptions (Some (trim t))
              ++ validatePath "description" descriptionOptions d with
        | [] =>
            (done 201 "Todo created successfully" (created e (trim t) d),
             {| docs := docs s ++ [created e (trim t) d]; calls := calls s1 |})
        | errors => (caught "Failed to create todo" (ValidationError errors), s1)
        end
  end.
Proof.
  run_handler. destruct (body_title body) as [t|]; [|reflexivity].
  destruct (isEmpty (trim t)) eqn:E.
  - now rewrite orb_true_r.
  - assert (Ht : isEmpty t = false).
    { destruct t; [discriminate E | reflexivity]. }
    rewrite Ht. simpl. rewrite title_setter, description_setter.
    now destruct (validatePath _ _ _ ++ validatePath _ _ _).
Qed.

(** The fields an update sets, read off the body. *)
Lemma castUpdate_build (body : Body) :
  castUpdate (buildUpdateData body)
  = {| set_title := option_map trim (body_title body);
       set_description := trimOrUndefined (body_description body);
       set_completed := body_completed body |}.
Proof.
  unfold castUpdate, buildUpdateData; simpl. f_equal.
  - destruct (body_title body) as [t|]; simpl; [|reflexivity].
    now rewrite title_setter.
  - destruct (body_description body) as [d|]; simpl; [|reflexivity].
    pose proof (description_setter (Some d)) as H.
    now destruct (trimOrUndefined (Some d)).
Qed.

Lemma putTodo_eq (e : Env) (id : string) (body : Body) (s : Store) :
  putTodo e id body s =
  if isValid id then
    if (keysLength (buildUpdateData body) =? 0)%nat then (noFields, s)
    else
      let f := castUpdate (buildUpdateData body) in
      let s1 := logged (call_findByIdAndUpdate id (buildUpdateData body)) s in
      match validateSet "title" titleOptions (set_title f)
            ++ validateSet "description" descriptionOptions (set_description f) with
      | [] =>
          match List.find (hasId (castObjectId id)) (docs s) with
          | Some t =>
              (done 200 "Todo updated successfully" (applyUpdate e f t),
               {| docs := updateFirst (castObjectId id) (applyUpdate e f) (docs s);
                  calls := calls s1 |})
          | None => (notFound, s1)
          end
      | errors => (caught "Failed to update todo" (ValidationError errors), s1)
      end
  else (invalidId, s).
Proof.
  run_handler. destruct (isValid id); simpl; [|reflexivity].
  destruct (keysLength (buildUpdateData body) =? 0)%nat; simpl; [reflexivity|].
  destruct (validateSet _ _ _ ++ validateSet _ _ _); simpl; [|reflexivity].
  now destruct (List.find _ (docs s)).
Qed.

End Equations.

(** ** Properties of the handlers *)

(** Open a request into the cases of its handler. *)
Ltac handler_cases r :=
  destruct r as [|?id|?body|?id ?body|?id]; unfold router;
  [ rewrite getTodos_eq | rewrite getTodo_eq | rewrite postTodo_eq
  | rewrite putTodo_eq | rewrite deleteTodo_eq ];
  cbv zeta;
  repeat match goal with
         | |- context [if ?b then _ else _] => destruct b eqn:?
         | |- context [match ?x with _ => _ end] => destruct x eqn:?
         end;
  simpl fst; simpl snd.

(** X1: whatever the request, the envelope sent agrees with the status:
    the status is 200, 201, 400, 404 or 500, [success] is true on 200 and
    201 only, [data] comes with success only, [error] with 500 only, and a
    failure always has a [message].  Only a create is answered 201 and only
    the list carries [count]. *)
Theorem envelope_matches_status {F : ObjectIdFormat}
        (e : Env) (r : Request) (s : Store) :
  coherent (fst (router e r s)) /\
  (status (fst (router e r s)) = 201 -> exists body, r = POST_todo body) /\
  (count (json (fst (router e r s))) <> None <-> r = GET_todos).
Proof.
  handler_cases r; unfold coherent; simpl;
    repeat split; intros; eauto;
    try discriminate; try congruence; try tauto;
    try (intuition (discriminate || congruence)).
Qed.

(** X2: a request is answered 400 exactly when the handler turns it down
    before touching the model, and then the store is left as it was; every
    other answer comes after exactly one call on the model. *)
Theorem one_call_unless_400 {F : ObjectIdFormat}
        (e : Env) (r : Request) (s : Store) :
  (status (fst (router e r s)) = 400 /\ snd (router e r s) = s) \/
  (status (fst (router e r s)) <> 400 /\
   exists c, calls (snd (router e r s)) = calls s ++ [c]).
Proof.
  handler_cases r; simpl;
    solve [ left; split; reflexivity
          | right; split; [discriminate | eexists; reflexivity] ].
Qed.

(** X3: a request that is not answered with success leaves every document of
    the collection as it was. *)
Theorem failure_keeps_collection {F : ObjectIdFormat}
        (e : Env) (r : Request) (s : Store) :
  success (json (fst (router e r s))) = false ->
  docs (snd (router e r s)) = docs s.
Proof.
  handler_cases r; simpl; intros H; (reflexivity || discriminate H).
Qed.

Lemma failure_keeps_collection_witness :
  docs (snd (router (F := hex24) Sample.env
                    (PUT_todo Sample.milkId
                              (Sample.body (Some Sample.longTitle) None (Some true)))
                    Sample.pantry))
  = docs Sample.pantry.
Proof.
  apply (failure_keeps_collection (F := hex24)). reflexivity.
Defined.

Lemma keysLength_zero (body : Body) :
  (keysLength (buildUpdateData body) =? 0)%nat = true <->
  body_title body = None /\ body_description body = None /\
  body_completed body = None.
Proof.
  unfold keysLength, buildUpdateData; simpl.
  destruct (body_title body), (body_description body), (body_completed body);
    simpl; split; intros H; try discriminate; try reflexivity;
    try (repeat split; reflexivity);
    destruct H as (H1 & H2 & H3); discriminate.
Qed.

Lemma isEmpty_trim (t : jsstring) : isEmpty (trim t) = true <-> trim t = [].
Proof. destruct (trim t); simpl; split; (reflexivity || discriminate). Qed.

(** Split a characterization of the answers into its directions and close
    the ones that clash. *)
Ltac split_causes :=
  repeat match goal with
         | |- _ /\ _ => split
         | |- _ <-> _ => split
         end;
  intros;
  repeat match goal with
         | H : exists _, _ |- _ => destruct H
         | H : _ /\ _ |- _ => destruct H
         | H : _ \/ _ |- _ => destruct H
         | H : POST_todo _ = POST_todo _ |- _ => injection H as H; subst
         | H : PUT_todo _ _ = PUT_todo _ _ |- _ => injection H as ? ?; subst
         | H : Some _ = Some _ |- _ => injection H as H; subst
         end;
  try discriminate; try congruence; try tauto;
  try (left; reflexivity); try (right; left; reflexivity);
  try (right; right; reflexivity).

(** X4: each 400 has one cause.  "Invalid todo ID format" answers exactly
    the requests whose path identifier fails the format check; "Title is
    required" exactly the creates whose title is absent or blank after
    trimming; the "at least one field" error exactly the updates with a
    well-formed identifier and none of the three fields; and no other 400
    is sent. *)
Theorem bad_request_causes {F : ObjectIdFormat}
        (e : Env) (r : Request) (s : Store) :
  (fst (router e r s) = invalidId <->
   exists id, pathId r = Some id /\ isValid id = false) /\
  (fst (router e r s) = titleRequired <->
   exists body, r = POST_todo body /\
     (body_title body = None \/
      exists t, body_title body = Some t /\ trim t = [])) /\
  (fst (router e r s) = noFields <->
   exists id body, r = PUT_todo id body /\ isValid id = true /\
     body_title body = None /\ body_description body = None /\
     body_completed body = None) /\
  (status (fst (router e r s)) = 400 ->
   fst (router e r s) = invalidId \/ fst (router e r s) = titleRequired \/
   fst (router e r s) = noFields).
Proof.
  destruct r as [|id|body|id body|id]; unfold router.
  - rewrite getTodos_eq; simpl. split_causes.
  - rewrite getTodo_eq. destruct (isValid id) eqn:Hid; simpl.
    + destruct (List.find _ (docs s)); split_causes.
    + split_causes. now exists id.
  - rewrite postTodo_eq. destruct (body_title body) as [t|] eqn:Ht; simpl.
    + destruct (isEmpty (trim t)) eqn:Hblank; simpl.
      * apply isEmpty_trim in Hblank. split_causes.
        exists body. split; [reflexivity|]. right. now exists t.
      * assert (Hne : trim t <> []).
        { intros E. apply isEmpty_trim in E. congruence. }
        destruct (validatePath _ _ _ ++ validatePath _ _ _); split_causes.
    + split_causes. exists body. split; [reflexivity | now left].
  - rewrite putTodo_eq. destruct (isValid id) eqn:Hid; simpl.
    + destruct (keysLength (buildUpdateData body) =? 0)%nat eqn:Hk; simpl.
      * apply keysLength_zero in Hk. destruct Hk as (Ht & Hd & Hc).
        split_causes. now exists id, body.
      * assert (Hsome : ~ (body_title body = None /\ body_description body = None
                           /\ body_completed body = None)).
        { intros H. apply keysLength_zero in H. congruence. }
        destruct (validateSet _ _ _ ++ validateSet _ _ _);
          [destruct (List.find _ (docs s))|]; split_causes.
    + split_causes. now exists id.
  - rewrite deleteTodo_eq. destruct (isValid id) eqn:Hid; simpl.
    + destruct (List.find _ (docs s)); split_causes.
    + split_causes. now exists id.
Qed.

(** ** What the validators of the schema accept *)

Lemma title_valid_iff (t : jsstring) :
  validatePath "title" titleOptions (Some t) = [] <->
  t <> [] /\ (List.length t <= 100)%nat.
Proof.
  unfold validatePath, titleOptions; simpl. destruct t as [|c r]; simpl isEmpty.
  - split; [discriminate | intros [H _]; congruence].
  - destruct (Nat.ltb_spec 100 (List.length (c :: r))); split;
      try discriminate; try reflexivity.
    + intros [_ H']. lia.
    + intros _. split; [discriminate | lia].
Qed.

Lemma description_valid_iff (d : option jsstring) :
  validatePath "description" descriptionOptions d = [] <->
  forall x, d = Some x -> (List.length x <= 500)%nat.
Proof.
  unfold validatePath, descriptionOptions; simpl. destruct d as [x|].
  - destruct (Nat.ltb_spec 500 (List.length x)); split;
      try discriminate; try reflexivity.
    + intros H'. specialize (H' x eq_refl). lia.
    + intros _ y [= <-]. lia.
  - split; [discriminate | reflexivity].
Qed.

(** The bound on a normalized description, read on the description sent. *)
Lemma trimOrUndefined_bound (d : option jsstring) (n : nat) :
  (forall x, trimOrUndefined d = Some x -> (List.length x <= n)%nat) <->
  (forall y, d = Some y -> (List.length (trim y) <= n)%nat).
Proof.
  rewrite trimOrUndefined_eq. destruct d as [y|].
  - destruct (trim y) as [|c r] eqn:E; simpl; split; intros H z.
    + intros [= <-]. rewrite E. simpl. lia.
    + discriminate.
    + intros [= <-]. rewrite E. now apply H.
    + intros [= <-]. rewrite <- E. now apply H.
  - split; discriminate.
Qed.

Lemma trimOrUndefined_nonempty (d : option jsstring) :
  trimOrUndefined d <> Some [].
Proof.
  intros H. now destruct (trimOrUndefined_trimmed d [] H) as [_ Hne].
Qed.

(** X5: a create is answered 201 exactly when the title is present, not
    empty after trimming and at most 100 code units long after trimming,
    and the description, if any, is at most 500 code units long after
    trimming. *)
Theorem create_succeeds_iff {F : ObjectIdFormat}
        (e : Env) (body : Body) (s : Store) :
  status (fst (postTodo e body s)) = 201 <->
  exists t, body_title body = Some t /\ trim t <> [] /\
    (List.length (trim t) <= 100)%nat /\
    (forall d, body_description body = Some d ->
       (List.length (trim d) <= 500)%nat).
Proof.
  rewrite postTodo_eq. destruct (body_title body) as [t|]; simpl.
  2:{ split; [discriminate | intros (t & H & _); discriminate]. }
  destruct (isEmpty (trim t)) eqn:Hblank; simpl.
  { apply isEmpty_trim in Hblank.
    split; [discriminate | intros (t' & [= <-] & Hne & _); congruence]. }
  destruct (validatePath "title" _ _ ++ validatePath "description" _ _) eqn:Hv;
    simpl.
  - apply app_eq_nil in Hv. destruct Hv as [Ht Hd].
    apply title_valid_iff in Ht. destruct Ht as [Hne Hlen].
    split; [|reflexivity]. intros _. exists t. repeat split; try assumption.
    apply (trimOrUndefined_bound (body_description body) 500).
    now apply description_valid_iff.
  - split; [discriminate|]. intros (t' & [= <-] & Hne & Hlen & Hd).
    exfalso.
    assert (Ht : validatePath "title" titleOptions (Some (trim t)) = [])
      by now apply title_valid_iff.
    assert (Hd' : validatePath "description" descriptionOptions
                    (trimOrUndefined (body_description body)) = []).
    { apply description_valid_iff.
      now apply (trimOrUndefined_bound (body_description body) 500). }
    rewrite Ht, Hd' in Hv. discriminate Hv.
Qed.

(** X6: a create sees its title and description through [trim] only: two
    bodies whose titles trim to the same string and whose descriptions
    normalize to the same value (a blank one counts as none) get the same
    answer and leave the same store. *)
Theorem create_ignores_outer_whitespace {F : ObjectIdFormat}
        (e : Env) (body body' : Body) (s : Store) :
  option_map trim (body_title body) = option_map trim (body_title body') ->
  trimOrUndefined (body_description body)
  = trimOrUndefined (body_description body') ->
  postTodo e body s = postTodo e body' s.
Proof.
  intros Ht Hd. rewrite !postTodo_eq.
  destruct (body_title body) as [t|], (body_title body') as [t'|];
    simpl in Ht; try discriminate; [|reflexivity].
  injection Ht as Ht. now rewrite Ht, Hd.
Qed.

Lemma create_ignores_outer_whitespace_witness :
  postTodo (F := hex24) Sample.env
           (Sample.body (Some (js "  Tea ")) (Some (js "   ")) None) Sample.pantry
  = postTodo (F := hex24) Sample.env
             (Sample.body (Some (js "Tea")) None None) Sample.pantry.
Proof.
  apply (create_ignores_outer_whitespace (F := hex24)); reflexivity.
Defined.

(** ** What the collection keeps *)

Section Invariants.

Context {F : ObjectIdFormat}.

Lemma Forall_updateFirst (P : ITodo -> Prop) (oid : ObjectId)
      (g : ITodo -> ITodo) (l : list ITodo) :
  (forall t, P t -> P (g t)) ->
  Forall P l -> Forall P (updateFirst oid g l).
Proof.
  intros Hg. induction 1 as [|t r Ht Hr IH]; simpl; [constructor|].
  destruct (hasId oid t); constructor; auto.
Qed.

Lemma Forall_removeFirst (P : ITodo -> Prop) (oid : ObjectId) (l : list ITodo) :
  Forall P l -> Forall P (removeFirst oid l).
Proof.
  induction 1 as [|t r Ht Hr IH]; simpl; [constructor|].
  destruct (hasId oid t); [assumption | now constructor].
Qed.

Lemma map_updateFirst {A : Type} (p : ITodo -> A) (oid : ObjectId)
      (g : ITodo -> ITodo) (l : list ITodo) :
  (forall t, p (g t) = p t) ->
  map p (updateFirst oid g l) = map p l.
Proof.
  intros Hg. induction l as [|t r IH]; simpl; [reflexivity|].
  destruct (hasId oid t); simpl; [now rewrite Hg | now rewrite IH].
Qed.

Lemma In_removeFirst (oid : ObjectId) (l : list ITodo) (t : ITodo) :
  In t (removeFirst oid l) -> In t l.
Proof.
  induction l as [|u r IH]; simpl; [tauto|].
  destruct (hasId oid u); simpl; tauto.
Qed.

Lemma NoDup_removeFirst (oid : ObjectId) (l : list ITodo) :
  NoDup (map _id l) -> NoDup (map _id (removeFirst oid l)).
Proof.
  induction l as [|u r IH]; simpl; [trivial|].
  intros H. inversion H as [|x xs Hnotin Hr]; subst.
  destruct (hasId oid u); [assumption|]. simpl. constructor; [|now apply IH].
  intros Hin. apply Hnotin. apply in_map_iff in Hin.
  destruct Hin as (t & Ht & Hin). apply in_map_iff.
  exists t. split; [assumption | now apply In_removeFirst in Hin].
Qed.

Lemma hasId_true (oid : ObjectId) (t : ITodo) :
  hasId oid t = true <-> _id t = oid.
Proof.
  unfold hasId. destruct (ObjectId_eq_dec (_id t) oid);
    split; (assumption || reflexivity || discriminate || congruence).
Qed.

Lemma hasId_false (oid : ObjectId) (t : ITodo) :
  hasId oid t = false <-> _id t <> oid.
Proof.
  unfold hasId. destruct (ObjectId_eq_dec (_id t) oid);
    split; (assumption || reflexivity || discriminate || congruence).
Qed.

(** [find] misses exactly when no document has the identifier. *)
Lemma find_none_absent (oid : ObjectId) (l : list ITodo) :
  List.find (hasId oid) l = None <-> absent oid l.
Proof.
  unfold absent. induction l as [|t r IH]; simpl.
  - split; [constructor | reflexivity].
  - destruct (hasId oid t) eqn:E.
    + apply hasId_true in E. split; [discriminate|].
      intros H. inversion H; subst. congruence.
    + apply hasId_false in E. rewrite IH. split.
      * now constructor.
      * intros H. now inversion H.
Qed.

(** The document a create stores conforms to the schema. *)
Lemma created_conforms (e : Env) (t : jsstring) (d : option jsstring) :
  validatePath "title" titleOptions (Some (trim t))
  ++ validatePath "description" descriptionOptions (trimOrUndefined d) = [] ->
  conforms (created e (trim t) (trimOrUndefined d)).
Proof.
  intros Hv. apply app_eq_nil in Hv. destruct Hv as [Ht Hd].
  unfold conforms; simpl. repeat split; try assumption.
  - apply title_setter.
  - apply description_setter.
  - apply trimOrUndefined_nonempty.
Qed.

(** A validated update keeps a conforming document conforming. *)
Lemma applyUpdate_conforms (e : Env) (body : Body) (t : ITodo) :
  validateSet "title" titleOptions (set_title (castUpdate (buildUpdateData body)))
  ++ validateSet "description" descriptionOptions
       (set_description (castUpdate (buildUpdateData body))) = [] ->
  conforms t ->
  conforms (applyUpdate e (castUpdate (buildUpdateData body)) t).
Proof.
  rewrite castUpdate_build; simpl. intros Hv (Ct & Cd & St & Sd & Ne).
  apply app_eq_nil in Hv. destruct Hv as [Ht Hd].
  unfold conforms, applyUpdate; simpl.
  assert (Htitle :
            validatePath "title" titleOptions
              (Some (orElse (option_map trim (body_title body)) (title t))) = []
            /\ applySetters titleOptions
                 (orElse (option_map trim (body_title body)) (title t))
               = orElse (option_map trim (body_title body)) (title t)).
  { destruct (body_title body) as [x|]; simpl in *.
    - split; [exact Ht | apply title_setter].
    - split; assumption. }
  destruct Htitle as [H1 H2].
  destruct (trimOrUndefined (body_description body)) as [x|] eqn:E; simpl in *.
  - destruct (trimOrUndefined_trimmed _ x E) as [Hx Hne].
    repeat split; try assumption.
    + unfold applySetters; simpl. now rewrite Hx.
    + congruence.
  - repeat split; assumption.
Qed.

End Invariants.

(** X7: the handlers keep the collection within the schema.  If every
    stored document has a title and a description that pass the validators
    of the schema, are already trimmed, and the description is not the empty
    string, then so has every document stored after any request. *)
Theorem stored_documents_conform {F : ObjectIdFormat}
        (e : Env) (r : Request) (s : Store) :
  Forall conforms (docs s) ->
  Forall conforms (docs (snd (router e r s))).
Proof.
  intros Hs.
  destruct r as [|id|body|id body|id]; unfold router.
  - now rewrite getTodos_eq.
  - rewrite getTodo_eq. now destruct (isValid id).
  - rewrite postTodo_eq. destruct (body_title body) as [t|]; [|assumption].
    destruct (isEmpty (trim t)); [assumption|]. cbv zeta.
    destruct (validatePath _ _ _ ++ validatePath _ _ _) eqn:Hv; [|assumption].
    simpl. apply Forall_app. split; [assumption|].
    constructor; [|constructor]. now apply created_conforms.
  - rewrite putTodo_eq. destruct (isValid id); [|assumption].
    destruct (keysLength _ =? 0)%nat; [assumption|]. cbv zeta.
    destruct (validateSet _ _ _ ++ validateSet _ _ _) eqn:Hv; [|assumption].
    destruct (List.find _ (docs s)); [|assumption]. simpl.
    apply Forall_updateFirst; [|assumption].
    intros t Ht. now apply applyUpdate_conforms.
  - rewrite deleteTodo_eq. destruct (isValid id); [|assumption].
    destruct (List.find _ (docs s)); [|assumption]. simpl.
    now apply Forall_removeFirst.
Qed.

Lemma stored_documents_conform_witness :
  Forall conforms
    (docs (snd (router (F := hex24) Sample.env
                       (PUT_todo Sample.milkId
                                 (Sample.body (Some (js " Eggs ")) (Some (js " ")) None))
                       Sample.pantry))).
Proof.
  apply (stored_documents_conform (F := hex24)).
  repeat constructor; vm_compute; discriminate.
Defined.

(** X8: the handlers keep identifiers unique.  If no two stored documents
    share an identifier, and the identifier a create gives its document is
    not in the collection yet, then no two documents share an identifier
    after the request. *)
Theorem identifiers_stay_unique {F : ObjectIdFormat}
        (e : Env) (r : Request) (s : Store) :
  NoDup (map _id (docs s)) ->
  (forall body, r = POST_todo body -> ~ In (newObjectId e) (map _id (docs s))) ->
  NoDup (map _id (docs (snd (router e r s)))).
Proof.
  intros Hs Hfresh.
  destruct r as [|id|body|id body|id]; unfold router.
  - now rewrite getTodos_eq.
  - rewrite getTodo_eq. now destruct (isValid id).
  - specialize (Hfresh body eq_refl).
    rewrite postTodo_eq. destruct (body_title body) as [t|]; [|assumption].
    destruct (isEmpty (trim t)); [assumption|]. cbv zeta.
    destruct (validatePath _ _ _ ++ validatePath _ _ _); [|assumption].
    simpl. rewrite map_app. simpl.
    apply (Permutation_NoDup (l := newObjectId e :: map _id (docs s))).
    + apply Permutation_cons_append.
    + now constructor.
  - rewrite putTodo_eq. destruct (isValid id); [|assumption].
    destruct (keysLength _ =? 0)%nat; [assumption|]. cbv zeta.
    destruct (validateSet _ _ _ ++ validateSet _ _ _); [|assumption].
    destruct (List.find _ (docs s)); [|assumption]. simpl.
    now rewrite map_updateFirst.
  - rewrite deleteTodo_eq. destruct (isValid id); [|assumption].
    destruct (List.find _ (docs s)); [|assumption]. simpl.
    now apply NoDup_removeFirst.
Qed.

Lemma identifiers_stay_unique_witness :
  NoDup (map _id
           (docs (snd (router (F := hex24) Sample.env
                              (POST_todo (Sample.body (Some (js "Tea")) None None))
                              Sample.pantry)))).
Proof.
  apply (identifiers_stay_unique (F := hex24)).
  - repeat constructor; simpl; intuition discriminate.
  - intros _ _. simpl. intuition discriminate.
Defined.

(** X9: timestamps stay in order.  If every stored document was last
    written no earlier than it was created, and the clock reading of the
    request is not before the creation of any stored document, then after
    the request every stored document was last written no earlier than it
    was created. *)
Theorem timestamps_stay_ordered {F : ObjectIdFormat}
        (e : Env) (r : Request) (s : Store) :
  Forall ordered (docs s) ->
  Forall (fun t => (createdAt t <= now e)%Z) (docs s) ->
  Forall ordered (docs (snd (router e r s))).
Proof.
  intros Hs Hclock.
  assert (Hboth : Forall (fun t => ordered t /\ (createdAt t <= now e)%Z) (docs s)).
  { apply Forall_forall. intros t Ht. split.
    - now apply (proj1 (Forall_forall _ _) Hs).
    - now apply (proj1 (Forall_forall _ _) Hclock). }
  destruct r as [|id|body|id body|id]; unfold router.
  - now rewrite getTodos_eq.
  - rewrite getTodo_eq. now destruct (isValid id).
  - rewrite postTodo_eq. destruct (body_title body) as [t|]; [|assumption].
    destruct (isEmpty (trim t)); [assumption|]. cbv zeta.
    destruct (validatePath _ _ _ ++ validatePath _ _ _); [|assumption].
    simpl. apply Forall_app. split; [assumption|].
    constructor; [|constructor]. unfold ordered; simpl. lia.
  - rewrite putTodo_eq. destruct (isValid id); [|assumption].
    destruct (keysLength _ =? 0)%nat; [assumption|]. cbv zeta.
    destruct (validateSet _ _ _ ++ validateSet _ _ _); [|assumption].
    destruct (List.find _ (docs s)); [|assumption]. simpl.
    eapply Forall_impl; [|apply Forall_updateFirst; [|exact Hboth]].
    + intros t Ht. exact (proj1 Ht).
    + intros t [_ Ht]. unfold ordered; simpl. split; assumption.
  - rewrite deleteTodo_eq. destruct (isValid id); [|assumption].
    destruct (List.find _ (docs s)); [|assumption]. simpl.
    now apply Forall_removeFirst.
Qed.

Lemma timestamps_stay_ordered_witness :
  Forall ordered
    (docs (snd (router (F := hex24) Sample.env
                       (PUT_todo Sample.milkId (Sample.body None None (Some true)))
                       Sample.pantry))).
Proof.
  apply (timestamps_stay_ordered (F := hex24));
    repeat constructor; vm_compute; discriminate.
Defined.

(** X10: an update never adds, removes or reorders documents and never
    rewrites an identifier or a creation time: whatever the request and
    its answer, the identifiers and the [createdAt] of the collection are,
    in order, what they were. *)
Theorem update_keeps_ids_and_creation {F : ObjectIdFormat}
        (e : Env) (id : string) (body : Body) (s : Store) :
  map _id (docs (snd (putTodo e id body s))) = map _id (docs s) /\
  map createdAt (docs (snd (putTodo e id body s))) = map createdAt (docs s).
Proof.
  rewrite putTodo_eq. destruct (isValid id); [|split; reflexivity].
  destruct (keysLength _ =? 0)%nat; [split; reflexivity|]. cbv zeta.
  destruct (validateSet _ _ _ ++ validateSet _ _ _); [|split; reflexivity].
  destruct (List.find _ (docs s)); [|split; reflexivity]. simpl.
  split; now apply map_updateFirst.
Qed.

(** ** Looking up, deleting, and one request after another *)

Section Lookup.

Context {F : ObjectIdFormat}.

Lemma find_in (oid : ObjectId) (l : list ITodo) (t : ITodo) :
  List.find (hasId oid) l = Some t -> In t l /\ _id t = oid.
Proof.
  intros H. apply find_some in H. destruct H as [Hin Hid].
  split; [assumption | now apply hasId_true].
Qed.

Lemma absent_not_in (oid : ObjectId) (l : list ITodo) :
  absent oid l <-> ~ In oid (map _id l).
Proof.
  unfold absent. rewrite Forall_forall. split.
  - intros H Hin. apply in_map_iff in Hin. destruct Hin as (t & Ht & Hin).
    exact (H t Hin Ht).
  - intros H t Hin Ht. apply H. apply in_map_iff. now exists t.
Qed.

Lemma removeFirst_split (oid : ObjectId) (l1 l2 : list ITodo) (t : ITodo) :
  Forall (fun u => hasId oid u = false) l1 -> hasId oid t = true ->
  removeFirst oid (l1 ++ t :: l2) = l1 ++ l2.
Proof.
  intros Hall Ht. induction Hall as [|u r Hu _ IH]; simpl.
  - now rewrite Ht.
  - now rewrite Hu, IH.
Qed.

Lemma find_app_absent (oid : ObjectId) (l : list ITodo) (t : ITodo) :
  absent oid l -> _id t = oid ->
  List.find (hasId oid) (l ++ [t]) = Some t.
Proof.
  intros Habs Ht. induction Habs as [|u r Hu _ IH]; simpl.
  - now rewrite (proj2 (hasId_true oid t) Ht).
  - now rewrite (proj2 (hasId_false oid u) Hu).
Qed.

Lemma find_updateFirst (oid : ObjectId) (g : ITodo -> ITodo)
      (l : list ITodo) (t : ITodo) :
  (forall u, _id (g u) = _id u) ->
  List.find (hasId oid) l = Some t ->
  List.find (hasId oid) (updateFirst oid g l) = Some (g t).
Proof.
  intros Hg. induction l as [|u r IH]; simpl; [discriminate|].
  destruct (hasId oid u) eqn:E; simpl.
  - intros [= ->]. apply hasId_true in E.
    now rewrite (proj2 (hasId_true oid (g t)) (eq_trans (Hg t) E)).
  - now rewrite E.
Qed.

(** In a collection without duplicate identifiers, the document removed was
    the only one with its identifier. *)
Lemma removeFirst_absent (oid : ObjectId) (l : list ITodo) (t : ITodo) :
  NoDup (map _id l) ->
  List.find (hasId oid) l = Some t ->
  absent oid (removeFirst oid l).
Proof.
  unfold absent. induction l as [|u r IH]; simpl; [discriminate|].
  intros Hnd. inversion Hnd as [|x xs Hnotin Hr]; subst.
  destruct (hasId oid u) eqn:E.
  - intros _. apply hasId_true in E. apply Forall_forall.
    intros v Hv Heq. apply Hnotin. apply in_map_iff. exists v.
    split; [congruence | assumption].
  - intros Hfind. constructor; [now apply hasId_false | now apply IH].
Qed.

End Lookup.

(** X11: with a well-formed identifier, Get answers 404 exactly when no
    stored document has the identifier the path parameter denotes;
    otherwise it answers 200 with a stored document that has it.  The
    collection is left as it was either way. *)
Theorem get_by_id_finds_stored {F : ObjectIdFormat} (id : string) (s : Store) :
  isValid id = true ->
  (fst (getTodo id s) = notFound <-> absent (castObjectId id) (docs s)) /\
  (forall t, fst (getTodo id s) = fetched t ->
     In t (docs s) /\ _id t = castObjectId id) /\
  (fst (getTodo id s) = notFound \/ exists t, fst (getTodo id s) = fetched t) /\
  docs (snd (getTodo id s)) = docs s.
Proof.
  intros Hid. rewrite getTodo_eq, Hid. simpl.
  destruct (List.find (hasId (castObjectId id)) (docs s)) as [u|] eqn:Hfind.
  - repeat split.
    + discriminate.
    + intros Habs. apply find_none_absent in Habs. congruence.
    + injection H as <-. now apply find_in in Hfind.
    + injection H as <-. now apply find_in in Hfind.
    + right. now exists u.
  - repeat split; try discriminate.
    + intros _. now apply find_none_absent.
    + now left.
Qed.

Lemma get_by_id_finds_stored_witness :
  (fst (getTodo (F := hex24) "64B7F0C2A1D3E4F506172802" Sample.pantry) = notFound
   <-> absent (castObjectId "64B7F0C2A1D3E4F506172802") (docs Sample.pantry)) /\
  docs (snd (getTodo (F := hex24) "64B7F0C2A1D3E4F506172802" Sample.pantry))
  = docs Sample.pantry.
Proof.
  destruct (get_by_id_finds_stored (F := hex24) "64B7F0C2A1D3E4F506172802"
              Sample.pantry eq_refl) as (H404 & _ & _ & Hdocs).
  split; assumption.
Defined.

(** X12: with a well-formed identifier, Delete either answers 200 with the
    first stored document that has the identifier and leaves the collection
    without that one document, every other document in place; or, when no
    stored document has the identifier, answers 404 and leaves the
    collection as it was. *)
Theorem delete_removes_one {F : ObjectIdFormat} (id : string) (s : Store) :
  isValid id = true ->
  (exists t before after,
     fst (deleteTodo id s) = done 200 "Todo deleted successfully" t /\
     docs s = before ++ t :: after /\
     docs (snd (deleteTodo id s)) = before ++ after /\
     _id t = castObjectId id /\
     absent (castObjectId id) before) \/
  (fst (deleteTodo id s) = notFound /\
   docs (snd (deleteTodo id s)) = docs s /\
   absent (castObjectId id) (docs s)).
Proof.
  intros Hid. rewrite deleteTodo_eq, Hid.
  destruct (List.find (hasId (castObjectId id)) (docs s)) as [t|] eqn:Hfind.
  - left. destruct (find_split _ _ _ Hfind) as (before & after & Hd & Ht & Hb).
    exists t, before, after. simpl. repeat split.
    + exact Hd.
    + rewrite Hd. now apply removeFirst_split.
    + now apply hasId_true.
    + unfold absent. eapply Forall_impl; [|exact Hb].
      intros u Hu. now apply hasId_false.
  - right. simpl. repeat split. now apply find_none_absent.
Qed.

Lemma delete_removes_one_witness :
  (exists t before after,
     fst (deleteTodo (F := hex24) Sample.milkId Sample.pantry)
     = done 200 "Todo deleted successfully" t /\
     docs Sample.pantry = before ++ t :: after /\
     docs (snd (deleteTodo (F := hex24) Sample.milkId Sample.pantry))
     = before ++ after /\
     _id t = castObjectId Sample.milkId /\
     absent (castObjectId Sample.milkId) before) \/
  (fst (deleteTodo (F := hex24) Sample.milkId Sample.pantry) = notFound /\
   docs (snd (deleteTodo (F := hex24) Sample.milkId Sample.pantry))
   = docs Sample.pantry /\
   absent (castObjectId Sample.milkId) (docs Sample.pantry)).
Proof.
  exact (delete_removes_one (F := hex24) Sample.milkId Sample.pantry eq_refl).
Defined.

(** X13: deleting is final.  In a collection without duplicate identifiers,
    after a Delete answered 200 a second Delete and a Get with the same
    path identifier are both answered 404. *)
Theorem delete_then_not_found {F : ObjectIdFormat} (id : string) (s : Store) :
  NoDup (map _id (docs s)) ->
  status (fst (deleteTodo id s)) = 200 ->
  fst (deleteTodo id (snd (deleteTodo id s))) = notFound /\
  fst (getTodo id (snd (deleteTodo id s))) = notFound.
Proof.
  intros Hnd. rewrite (deleteTodo_eq id s).
  destruct (isValid id) eqn:Hid; [|discriminate].
  destruct (List.find (hasId (castObjectId id)) (docs s)) as [t|] eqn:Hfind;
    [|discriminate].
  intros _. simpl snd.
  pose proof (removeFirst_absent _ _ _ Hnd Hfind) as Habs.
  apply find_none_absent in Habs.
  rewrite deleteTodo_eq, getTodo_eq, Hid. simpl docs. now rewrite Habs.
Qed.

Lemma delete_then_not_found_witness :
  fst (deleteTodo (F := hex24) Sample.milkId
                  (snd (deleteTodo (F := hex24) Sample.milkId Sample.pantry)))
  = notFound /\
  fst (getTodo (F := hex24) Sample.milkId
               (snd (deleteTodo (F := hex24) Sample.milkId Sample.pantry)))
  = notFound.
Proof.
  apply (delete_then_not_found (F := hex24)).
  - repeat constructor; simpl; intuition discriminate.
  - reflexivity.
Defined.

(** X14: create, then get.  When a create is answered 201, the identifier
    it gave the document was not in the collection before, and a
    well-formed path identifier denotes that identifier, then Get with it
    answers 200 with the very document the create returned. *)
Theorem create_then_get {F : ObjectIdFormat}
        (e : Env) (body : Body) (id : string) (s : Store) :
  status (fst (postTodo e body s)) = 201 ->
  ~ In (newObjectId e) (map _id (docs s)) ->
  isValid id = true ->
  castObjectId id = newObjectId e ->
  exists saved,
    fst (postTodo e body s) = done 201 "Todo created successfully" saved /\
    fst (getTodo id (snd (postTodo e body s))) = fetched saved.
Proof.
  intros H201 Hfresh Hid Hcast. revert H201. rewrite postTodo_eq.
  destruct (body_title body) as [t|]; [|discriminate].
  destruct (isEmpty (trim t)); [discriminate|]. cbv zeta.
  destruct (validatePath _ _ _ ++ validatePath _ _ _); [|discriminate].
  intros _. eexists. split; [reflexivity|].
  rewrite getTodo_eq, Hid, Hcast. simpl.
  rewrite find_app_absent; [reflexivity | now apply absent_not_in | reflexivity].
Qed.

Lemma create_then_get_witness :
  exists saved,
    fst (postTodo (F := hex24) Sample.env
                  (Sample.body (Some (js "Tea")) None None) Sample.pantry)
    = done 201 "Todo created successfully" saved /\
    fst (getTodo (F := hex24) "64B7F0C2A1D3E4F506172839"
           (snd (postTodo (F := hex24) Sample.env
                          (Sample.body (Some (js "Tea")) None None) Sample.pantry)))
    = fetched saved.
Proof.
  apply (create_then_get (F := hex24)).
  - reflexivity.
  - simpl. intuition discriminate.
  - reflexivity.
  - reflexivity.
Defined.

(** X15: update, then get.  After an update answered 200, Get with the same
    path identifier answers 200 with the very document the update
    returned. *)
Theorem update_then_get {F : ObjectIdFormat}
        (e : Env) (id : string) (body : Body) (s : Store) :
  status (fst (putTodo e id body s)) = 200 ->
  exists updated,
    fst (putTodo e id body s) = done 200 "Todo updated successfully" updated /\
    fst (getTodo id (snd (putTodo e id body s))) = fetched updated.
Proof.
  rewrite putTodo_eq. destruct (isValid id) eqn:Hid; [|discriminate].
  destruct (keysLength _ =? 0)%nat; [discriminate|]. cbv zeta.
  destruct (validateSet _ _ _ ++ validateSet _ _ _); [|discriminate].
  destruct (List.find (hasId (castObjectId id)) (docs s)) as [t|] eqn:Hfind;
    [|discriminate].
  intros _. eexists. split; [reflexivity|].
  rewrite getTodo_eq, Hid. simpl.
  rewrite (find_updateFirst _ _ _ t); [reflexivity | reflexivity | exact Hfind].
Qed.

Lemma update_then_get_witness :
  exists updated,
    fst (putTodo (F := hex24) Sample.env Sample.milkId
                 (Sample.body (Some (js " Oat milk ")) None None) Sample.pantry)
    = done 200 "Todo updated successfully" updated /\
    fst (getTodo (F := hex24) Sample.milkId
           (snd (putTodo (F := hex24) Sample.env Sample.milkId
                         (Sample.body (Some (js " Oat milk ")) None None)
                         Sample.pantry)))
    = fetched updated.
Proof.
  apply (update_then_get (F := hex24)). reflexivity.
Defined.

Section Sequences.

Context {F : ObjectIdFormat}.

(** A document newer than all the others sorts to the front. *)
Lemma sort_app_newest (l : list ITodo) (x : ITodo) :
  Forall (fun t => (createdAt t < createdAt x)%Z) l ->
  sortCreatedAtDesc (l ++ [x]) = x :: sortCreatedAtDesc l.
Proof.
  induction 1 as [|u r Hu _ IH]; simpl; [reflexivity|].
  rewrite IH. simpl.
  destruct (Z.leb_spec (createdAt x) (createdAt u)); [lia | reflexivity].
Qed.

Lemma updateFirst_twice (oid : ObjectId) (g : ITodo -> ITodo) (l : list ITodo) :
  (forall u, _id (g u) = _id u) ->
  (forall u, g (g u) = g u) ->
  updateFirst oid g (updateFirst oid g l) = updateFirst oid g l.
Proof.
  intros Hid Hg. induction l as [|u r IH]; simpl; [reflexivity|].
  destruct (hasId oid u) eqn:E; simpl.
  - apply hasId_true in E.
    rewrite (proj2 (hasId_true oid (g u)) (eq_trans (Hid u) E)).
    now rewrite Hg.
  - now rewrite E, IH.
Qed.

Lemma applyUpdate_twice (e : Env) (f : SetFields) (t : ITodo) :
  applyUpdate e f (applyUpdate e f t) = applyUpdate e f t.
Proof.
  unfold applyUpdate; simpl.
  destruct (set_title f), (set_description f), (set_completed f); reflexivity.
Qed.

(** What the update validators accept, read on the body. *)
Lemma update_valid_iff (body : Body) :
  validateSet "title" titleOptions (set_title (castUpdate (buildUpdateData body)))
  ++ validateSet "description" descriptionOptions
       (set_description (castUpdate (buildUpdateData body))) = [] <->
  (forall t, body_title body = Some t ->
     trim t <> [] /\ (List.length (trim t) <= 100)%nat) /\
  (forall d, body_description body = Some d ->
     (List.length (trim d) <= 500)%nat).
Proof.
  rewrite castUpdate_build; simpl.
  assert (Ht : validateSet "title" titleOptions (option_map trim (body_title body))
               = [] <->
               forall t, body_title body = Some t ->
                 trim t <> [] /\ (List.length (trim t) <= 100)%nat).
  { destruct (body_title body) as [t|]; simpl.
    - unfold validateSet. rewrite title_valid_iff. split.
      + intros H x [= <-]. exact H.
      + intros H. now apply H.
    - split; [discriminate | reflexivity]. }
  assert (Hd : validateSet "description" descriptionOptions
                 (trimOrUndefined (body_description body)) = [] <->
               forall d, body_description body = Some d ->
                 (List.length (trim d) <= 500)%nat).
  { rewrite <- trimOrUndefined_bound.
    destruct (trimOrUndefined (body_description body)) as [x|]; simpl.
    - unfold validateSet. apply description_valid_iff.
    - split; [discriminate | reflexivity]. }
  split.
  - intros H. apply app_eq_nil in H. destruct H as [H1 H2].
    split; [now apply Ht | now apply Hd].
  - intros [H1 H2]. apply Ht in H1. apply Hd in H2. now rewrite H1, H2.
Qed.

End Sequences.

(** X16: create, then list.  When a create is answered 201 at a clock
    reading later than the creation of every stored document, the list that
    follows is the created document in front of what the list answered
    before. *)
Theorem create_then_list {F : ObjectIdFormat}
        (e : Env) (body : Body) (s : Store) :
  status (fst (postTodo e body s)) = 201 ->
  Forall (fun t => (createdAt t < now e)%Z) (docs s) ->
  exists saved before,
    fst (postTodo e body s) = done 201 "Todo created successfully" saved /\
    fst (getTodos s) = listed before /\
    fst (getTodos (snd (postTodo e body s))) = listed (saved :: before).
Proof.
  intros H201 Hnew. revert H201. rewrite postTodo_eq.
  destruct (body_title body) as [t|]; [|discriminate].
  destruct (isEmpty (trim t)); [discriminate|]. cbv zeta.
  destruct (validatePath _ _ _ ++ validatePath _ _ _); [|discriminate].
  intros _. do 2 eexists. split; [reflexivity|].
  rewrite !getTodos_eq. simpl. split; [reflexivity|].
  now rewrite sort_app_newest.
Qed.

Lemma create_then_list_witness :
  exists saved before,
    fst (postTodo (F := hex24) Sample.env
                  (Sample.body (Some (js "Tea")) None None) Sample.pantry)
    = done 201 "Todo created successfully" saved /\
    fst (getTodos Sample.pantry) = listed before /\
    fst (getTodos (snd (postTodo (F := hex24) Sample.env
                                 (Sample.body (Some (js "Tea")) None None)
                                 Sample.pantry)))
    = listed (saved :: before).
Proof.
  apply (create_then_list (F := hex24)).
  - reflexivity.
  - repeat constructor.
Defined.

(** X17: an update is answered 200 exactly when the identifier is
    well-formed, the body has one of the three fields, a title sent is not
    blank and at most 100 code units long after trimming, a description
    sent is at most 500 code units long after trimming, and some stored
    document has the identifier; with no such document and everything else
    the same, the answer is 404. *)
Theorem update_succeeds_iff {F : ObjectIdFormat}
        (e : Env) (id : string) (body : Body) (s : Store) :
  (status (fst (putTodo e id body s)) = 200 <->
   isValid id = true /\ updatable body /\
   ~ absent (castObjectId id) (docs s)) /\
  (status (fst (putTodo e id body s)) = 404 <->
   isValid id = true /\ updatable body /\
   absent (castObjectId id) (docs s)).
Proof.
  unfold updatable. rewrite putTodo_eq.
  destruct (isValid id); simpl.
  2:{ split; (split; [discriminate | intros (H & _); discriminate]). }
  destruct (keysLength (buildUpdateData body) =? 0)%nat eqn:Hk; simpl.
  { apply keysLength_zero in Hk.
    split; (split; [discriminate | intros (_ & (H & _) & _); tauto]). }
  assert (Hsome : ~ (body_title body = None /\ body_description body = None
                     /\ body_completed body = None)).
  { intros H. apply keysLength_zero in H. congruence. }
  cbv zeta.
  destruct (validateSet _ _ _ ++ validateSet _ _ _) eqn:Hv; simpl.
  - apply update_valid_iff in Hv. destruct Hv as [Ht Hd].
    destruct (List.find (hasId (castObjectId id)) (docs s)) as [t|] eqn:Hfind;
      simpl.
    + assert (Hpresent : ~ absent (castObjectId id) (docs s)).
      { intros H. apply find_none_absent in H. congruence. }
      split; (split; [try discriminate | try tauto]).
      intros _. tauto.
    + apply find_none_absent in Hfind.
      split; (split; [try discriminate | try tauto]).
      intros _. tauto.
  - assert (Hbad : ~ ((forall t, body_title body = Some t ->
                         trim t <> [] /\ (List.length (trim t) <= 100)%nat) /\
                      (forall d, body_description body = Some d ->
                         (List.length (trim d) <= 500)%nat))).
    { intros H. apply update_valid_iff in H. simpl in H. congruence. }
    split; (split; [discriminate | tauto]).
Qed.

(** X18: an update repeated is an update done once.  Serving the same
    update again at the same clock reading gives the same answer and leaves
    every document as the first one left it. *)
Theorem update_is_idempotent {F : ObjectIdFormat}
        (e : Env) (id : string) (body : Body) (s : Store) :
  fst (putTodo e id body (snd (putTodo e id body s)))
  = fst (putTodo e id body s) /\
  docs (snd (putTodo e id body (snd (putTodo e id body s))))
  = docs (snd (putTodo e id body s)).
Proof.
  rewrite (putTodo_eq e id body s).
  destruct (isValid id) eqn:Hid.
  2:{ simpl. rewrite putTodo_eq, Hid. split; reflexivity. }
  destruct (keysLength (buildUpdateData body) =? 0)%nat eqn:Hk.
  { simpl. rewrite putTodo_eq, Hid, Hk. split; reflexivity. }
  cbv zeta.
  destruct (validateSet _ _ _ ++ validateSet _ _ _) eqn:Hv.
  2:{ simpl. rewrite putTodo_eq, Hid, Hk. cbv zeta. rewrite Hv.
      split; reflexivity. }
  destruct (List.find (hasId (castObjectId id)) (docs s)) as [t|] eqn:Hfind.
  - simpl. rewrite putTodo_eq, Hid, Hk. cbv zeta. rewrite Hv. simpl docs.
    rewrite (find_updateFirst _ _ _ t); [|reflexivity | exact Hfind].
    simpl. rewrite applyUpdate_twice.
    rewrite updateFirst_twice;
      [split; reflexivity | reflexivity | intros u; apply applyUpdate_twice].
  - simpl. rewrite putTodo_eq, Hid, Hk. cbv zeta. rewrite Hv. simpl docs.
    rewrite Hfind. split; reflexivity.
Qed.
